(** * A shallow embedding of [src/python_libs/messages.py]

    The module keeps its state in class attributes: [Severity.levels] (a
    dict from level ids to descriptor dicts), [Messages.defaults] (a dict
    with keys ["severity_level"] and ["style"]) and the two singleton flags
    [Severity._instance_created] and [Messages._instance_created].  A
    [Messages] instance reads the levels through [self.severity.levels],
    which resolves to the same class dict, and the defaults through
    [self.defaults], which resolves to [Messages.defaults].  We therefore
    model one global [world] holding these objects together with the text
    written to standard output, and the Python code as a state and
    exception monad over it.

    Standard output is kept as the list of the strings passed to [print],
    one entry per [print] call (Python writes the string followed by a
    newline). *)

From stdpp Require Import base gmap strings.
From Stdlib Require Import Ascii.

Open Scope string_scope.

(* ------------------------------------------------------------------ *)
(** ** Python values and exceptions *)

(** The objects that flow through [print_message]: a [str] or [None]. *)
Inductive pyobj :=
| PyStr (s : string)
| PyNone.

(** [str(o)], as used by [print] and by f-strings. *)
Definition py_str (o : pyobj) : string :=
  match o with
  | PyStr s => s
  | PyNone => "None"
  end.

(** The exceptions the module can raise. *)
Inductive exn :=
| TypeError                (* operand or arity errors of the interpreter *)
| KeyError (key : string)  (* [del d[k]] or [d[k]] on a missing key *)
| Exception (msg : string). (* [raise Exception(msg)] *)

Inductive result (A : Type) :=
| Ok (a : A)
| Raise (e : exn).
Arguments Ok {A} a.
Arguments Raise {A} e.

(* ------------------------------------------------------------------ *)
(** ** Colors *)

Module Colors.

(** The escape character [\033]. *)
Definition ESC : string := String (ascii_of_nat 27) EmptyString.

(** A Select Graphic Rendition sequence [\033[<n>m]. *)
Definition sgr (n : string) : string := ESC +:+ "[" +:+ n +:+ "m".

(** [Colors._COLORS], in the order of the source. *)
Definition _COLORS : list (string * string) :=
  [ ("NONE", "");
    ("RESET", sgr "0");
    ("BLACK", sgr "30");
    ("RED", sgr "31");
    ("GREEN", sgr "32");
    ("YELLOW", sgr "33");
    ("BLUE", sgr "34");
    ("MAGENTA", sgr "35");
    ("CYAN", sgr "36");
    ("WHITE", sgr "37");
    ("BRIGHT_BLACK", sgr "90");
    ("BRIGHT_RED", sgr "91");
    ("BRIGHT_GREEN", sgr "92");
    ("BRIGHT_YELLOW", sgr "93");
    ("BRIGHT_BLUE", sgr "94");
    ("BRIGHT_MAGENTA", sgr "95");
    ("BRIGHT_CYAN", sgr "96");
    ("BRIGHT_WHITE", sgr "97") ].

(** [COLORS = MappingProxyType(_COLORS)]: a read-only view, constant. *)
Definition COLORS : gmap string string := list_to_map _COLORS.

End Colors.

(* ------------------------------------------------------------------ *)
(** ** Styles, descriptors and the world *)

Module Styles.
Inductive style := PLAIN | COLORS | ICONS.
End Styles.

(** A descriptor dict [{"icon": .., "label": .., "color": ..}]. *)
Record descriptor := mk_descriptor {
  icon : string;
  label : string;
  color : string
}.

(** [Messages.defaults]. The default severity may be [None]. *)
Record defaults := mk_defaults {
  dflt_severity_level : option string;  (* defaults["severity_level"] *)
  dflt_style : Styles.style             (* defaults["style"] *)
}.

Record world := mk_world {
  levels : gmap string descriptor;       (* Severity.levels *)
  msg_defaults : defaults;               (* Messages.defaults *)
  severity_instance_created : bool;      (* Severity._instance_created *)
  messages_instance_created : bool;      (* Messages._instance_created *)
  stdout : list string
}.

Definition set_levels (lv : gmap string descriptor) (w : world) : world :=
  mk_world lv (msg_defaults w) (severity_instance_created w)
    (messages_instance_created w) (stdout w).

Definition set_msg_defaults (d : defaults) (w : world) : world :=
  mk_world (levels w) d (severity_instance_created w)
    (messages_instance_created w) (stdout w).

Definition set_severity_flag (b : bool) (w : world) : world :=
  mk_world (levels w) (msg_defaults w) b (messages_instance_created w) (stdout w).

Definition set_messages_flag (b : bool) (w : world) : world :=
  mk_world (levels w) (msg_defaults w) (severity_instance_created w) b (stdout w).

Definition append_stdout (lines : list string) (w : world) : world :=
  mk_world (levels w) (msg_defaults w) (severity_instance_created w)
    (messages_instance_created w) (stdout w ++ lines).

(** The class body of [Severity.levels]. *)
Definition builtin_levels : gmap string descriptor :=
  list_to_map
    [ ("COOL",  mk_descriptor "🚀" "[INFO] " "GREEN");
      ("INFO",  mk_descriptor "✅" "[INFO] " "NONE");
      ("WARN",  mk_descriptor "⚠️" "[WARNING] " "YELLOW");
      ("FATAL", mk_descriptor "❌" "[FATAL] " "RED") ].

(** The state right after the module is imported. *)
Definition initial_world : world :=
  mk_world builtin_levels (mk_defaults (Some "INFO") Styles.ICONS) false false [].

(* ------------------------------------------------------------------ *)
(** ** The state and exception monad *)

Definition M (A : Type) : Type := world -> result A * world.

Global Instance M_ret : MRet M := fun A a w => (Ok a, w).
Global Instance M_bind : MBind M := fun A B f m w =>
  match m w with
  | (Ok a, w') => f a w'
  | (Raise e, w') => (Raise e, w')
  end.

Definition raise {A} (e : exn) : M A := fun w => (Raise e, w).

Definition gets {A} (f : world -> A) : M A := fun w => (Ok (f w), w).

Definition modify (f : world -> world) : M unit := fun w => (Ok tt, f w).

(** [print(o)]. *)
Definition print (o : pyobj) : M unit := modify (append_stdout [py_str o]).

(** [a + b] on the objects of [print_message]: only [str + str] is defined. *)
Definition py_add (a b : pyobj) : M pyobj :=
  match a, b with
  | PyStr x, PyStr y => mret (PyStr (x +:+ y))
  | _, _ => raise TypeError
  end.

(** [self.severity.levels[k]]. *)
Definition levels_getitem (k : string) : M descriptor :=
  lv ← gets levels;
  match lv !! k with
  | Some d => mret d
  | None => raise (KeyError k)
  end.

(** [Colors.getCode(name)]. *)
Definition getCode (name : string) : M pyobj :=
  match Colors.COLORS !! name with
  | None => mret PyNone
  | Some c => mret (PyStr c)
  end.

(* ------------------------------------------------------------------ *)
(** ** Severity *)

(** [Severity.add_level(id, icon, label, color)]. *)
Definition add_level (id icon label color : string) : M unit :=
  modify (fun w => set_levels (<[id := mk_descriptor icon label color]> (levels w)) w).

(** [Severity.remove_level(id)]: [del self.levels[id]]. *)
Definition remove_level (id : string) : M unit :=
  lv ← gets levels;
  match lv !! id with
  | None => raise (KeyError id)
  | Some _ => modify (set_levels (delete id lv))
  end.

(** [Severity.set_default_level(id = None)]; the returned [self] is
    modelled as [tt]. *)
Definition set_default_level (id : option string) : M unit :=
  match id with
  | None =>
      modify (fun w => set_msg_defaults
                (mk_defaults None (dflt_style (msg_defaults w))) w)
  | Some i =>
      lv ← gets levels;
      match lv !! i with
      | None => raise (Exception ("Severity level does not exist: " +:+ i))
      | Some _ =>
          modify (fun w => set_msg_defaults
                    (mk_defaults (Some i) (dflt_style (msg_defaults w))) w)
      end
  end.

(** [Severity.get_default_level()]. *)
Definition get_default_level : M (option string) :=
  gets (fun w => dflt_severity_level (msg_defaults w)).

(* ------------------------------------------------------------------ *)
(** ** Messages *)

(** [Messages.print_message(message, severity_level, style)]. *)
Definition print_message (message : string) (severity_level : string)
    (style : Styles.style) : M unit :=
  match style with
  | Styles.PLAIN => print (PyStr message)
  | Styles.COLORS =>
      d ← levels_getitem severity_level;
      color_start ← getCode (color d);
      color_end ← getCode "RESET";
      s ← py_add color_start (PyStr message);
      s ← py_add s color_end;
      print s
  | Styles.ICONS =>
      d ← levels_getitem severity_level;
      s ← py_add (PyStr (icon d)) (PyStr " ");
      s ← py_add s (PyStr message);
      print s
  end.

(** [severity_level in self.severity.levels], for a value that may be
    [None]; the keys of the dict are strings, so [None] is never in it. *)
Definition level_declared (lv : gmap string descriptor) (sev : option string) : bool :=
  match sev with
  | Some s => bool_decide (is_Some (lv !! s))
  | None => false
  end.

(** The first lines of [show_message]: an omitted argument ([None]) is
    replaced by the entry of [self.defaults]. *)
Definition resolve_severity (d : defaults) (severity_level : option string) : option string :=
  match severity_level with
  | None => dflt_severity_level d
  | Some s => Some s
  end.

Definition resolve_style (d : defaults) (style : option Styles.style) : Styles.style :=
  match style with
  | None => dflt_style d
  | Some s => s
  end.

(** The lines of the undeclared branch of [show_message]. *)
Definition undeclared_warning (severity_level : option string) : string :=
  "⚠️ Undeclared severity level: " +:+ py_str (match severity_level with
                                              | Some s => PyStr s
                                              | None => PyNone
                                              end).

(** [Messages.show_message(message, severity_level = None, style = None)]. *)
Definition show_message (message : string) (severity_level : option string)
    (style : option Styles.style) : M bool :=
  d ← gets msg_defaults;
  let severity_level := resolve_severity d severity_level in
  let style := resolve_style d style in
  lv ← gets levels;
  match severity_level with
  | Some s =>
      match lv !! s with
      | Some _ =>
          print_message message s style;;
          mret true
      | None =>
          print (PyStr (undeclared_warning severity_level));;
          print (PyStr message);;
          mret false
      end
  | None =>
      print (PyStr (undeclared_warning severity_level));;
      print (PyStr message);;
      mret false
  end.

(* ------------------------------------------------------------------ *)
(** ** Construction of the singletons *)

(** Calling a class with [nargs] positional arguments runs
    [cls.__new__(cls, *args)] and then, on the instance it returns,
    [__init__(self, *args)]. Both [__new__] methods take no argument
    besides [cls], so a call with arguments raises a [TypeError] before
    the body runs. *)
Inductive pyclass := SeverityCls | MessagesCls.

Definition class_flag (c : pyclass) (w : world) : bool :=
  match c with
  | SeverityCls => severity_instance_created w
  | MessagesCls => messages_instance_created w
  end.

Definition set_class_flag (c : pyclass) (b : bool) : world -> world :=
  match c with
  | SeverityCls => set_severity_flag b
  | MessagesCls => set_messages_flag b
  end.

(** The body shared by [Severity.__new__] and [Messages.__new__]. *)
Definition singleton_new (c : pyclass) (nargs : nat) : M unit :=
  match nargs with
  | O =>
      gets (class_flag c) ≫= fun created : bool =>
      if created then raise (Exception "Severity is a singleton")
      else modify (set_class_flag c true)
  | S _ => raise TypeError
  end.

(** [__init__]: [Severity] inherits [object.__init__], which accepts the
    call when [__new__] is overridden; [Messages.__init__(self, severity)]
    takes exactly one argument and stores it on the instance. *)
Definition singleton_init (c : pyclass) (nargs : nat) : M unit :=
  match c with
  | SeverityCls => mret tt
  | MessagesCls => if Nat.eqb nargs 1 then mret tt else raise TypeError
  end.

(** [Severity()], [Messages(severity)], ... with [nargs] arguments;
    [Ok tt] means an instance was returned. *)
Definition construct (c : pyclass) (nargs : nat) : M unit :=
  singleton_new c nargs;;
  singleton_init c nargs.

(** A caller that tries constructions one after the other, catching the
    exceptions, and records which attempts returned an instance. *)
Definition try_construct (c : pyclass) (nargs : nat) : M bool := fun w =>
  match construct c nargs w with
  | (Ok _, w') => (Ok true, w')
  | (Raise _, w') => (Ok false, w')
  end.

Fixpoint run_attempts (attempts : list (pyclass * nat)) : M (list (pyclass * bool)) :=
  match attempts with
  | [] => mret []
  | (c, n) :: rest =>
      ok ← try_construct c n;
      oks ← run_attempts rest;
      mret ((c, ok) :: oks)
  end.

(** Number of attempts on class [c] that returned an instance. *)
Definition successes (c : pyclass) (outcomes : list (pyclass * bool)) : nat :=
  length (List.filter (fun p => match p, c with
                                | (SeverityCls, true), SeverityCls => true
                                | (MessagesCls, true), MessagesCls => true
                                | _, _ => false
                                end) outcomes).

(* ------------------------------------------------------------------ *)
(** ** The caller [src/test/setup.py] *)

(** The module-level code of the setup script, run on import:
    [severity = Severity()] and then [messages = Messages(severity)]. *)
Definition setup_module_init : M unit :=
  construct SeverityCls 0;;
  construct MessagesCls 1.

(* ================================================================== *)
(** * Properties *)

(** Running a bind. *)
Lemma run_bind {A B} (m : M A) (f : A -> M B) (w : world) :
  (m ≫= f) w = match m w with
               | (Ok a, w') => f a w'
               | (Raise e, w') => (Raise e, w')
               end.
Proof. reflexivity. Qed.

(** ** Frame: which computations leave the registry and the defaults alone *)

Section Frame.

(** [m] neither touches [Severity.levels] nor [Messages.defaults]. *)
Definition frames {A} (m : M A) : Prop :=
  forall w, levels (snd (m w)) = levels w /\
            msg_defaults (snd (m w)) = msg_defaults w.

Lemma frames_ret {A} (a : A) : frames (mret a).
Proof. intros w. split; reflexivity. Qed.

Lemma frames_raise {A} (e : exn) : frames (raise (A := A) e).
Proof. intros w. split; reflexivity. Qed.

Lemma frames_gets {A} (f : world -> A) : frames (gets f).
Proof. intros w. split; reflexivity. Qed.

Lemma frames_print (o : pyobj) : frames (print o).
Proof. intros w. split; reflexivity. Qed.

Lemma frames_bind {A B} (m : M A) (f : A -> M B) :
  frames m -> (forall a, frames (f a)) -> frames (m ≫= f).
Proof.
  intros Hm Hf w. rewrite run_bind.
  destruct (Hm w) as [Hl Hd].
  destruct (m w) as [[a|e] w'] eqn:E; simpl in *.
  - destruct (Hf a w') as [Hl' Hd']. split; congruence.
  - split; assumption.
Qed.

Lemma frames_py_add (a b : pyobj) : frames (py_add a b).
Proof. destruct a, b; intros w; split; reflexivity. Qed.

Lemma frames_getCode (name : string) : frames (getCode name).
Proof. unfold getCode. destruct (Colors.COLORS !! name); apply frames_ret. Qed.

Lemma frames_levels_getitem (k : string) : frames (levels_getitem k).
Proof.
  unfold levels_getitem. apply frames_bind; [apply frames_gets|].
  intros lv. destruct (lv !! k); [apply frames_ret | apply frames_raise].
Qed.

End Frame.

Create HintDb frame.
Global Hint Resolve frames_ret frames_raise frames_gets frames_print
  frames_py_add frames_getCode frames_levels_getitem : frame.

(** Decompose a computation into its frame obligations. *)
Ltac frame_solve :=
  repeat first
    [ progress (auto with frame)
    | apply frames_bind; [| intros ?]
    | match goal with
      | |- frames (match ?x with _ => _ end) => destruct x
      end ].

Lemma frames_print_message (message s : string) (style : Styles.style) :
  frames (print_message message s style).
Proof. unfold print_message. destruct style; frame_solve. Qed.

Global Hint Resolve frames_print_message : frame.

(** [C7] [show_message] never mutates the registry's level table nor the
    process-wide defaults: for every message, severity and style, also on
    the undeclared-severity path and when it raises, [Severity.levels] and
    [Messages.defaults] after the call equal those before it. *)
Theorem show_message_preserves_registry (w : world) (message : string)
    (severity_level : option string) (style : option Styles.style) :
  levels (snd (show_message message severity_level style w)) = levels w /\
  msg_defaults (snd (show_message message severity_level style w)) = msg_defaults w.
Proof.
  revert w. unfold show_message. frame_solve.
Qed.

(** ** Rendering *)

(** Run the monadic plumbing of a computation on a concrete world. *)
Ltac run_m :=
  unfold mbind, M_bind, mret, M_ret, gets, modify, raise, print;
  with_strategy opaque [Colors.COLORS] simpl.

Lemma COLORS_RESET : Colors.COLORS !! "RESET" = Some (Colors.sgr "0").
Proof. reflexivity. Qed.

Lemma string_app_assoc (a b c : string) : (a +:+ b) +:+ c = a +:+ (b +:+ c).
Proof. induction a as [|x a IH]; [reflexivity | exact (f_equal (String x) IH)]. Qed.

Lemma append_stdout_app (l1 l2 : list string) (w : world) :
  append_stdout l2 (append_stdout l1 w) = append_stdout (l1 ++ l2) w.
Proof. unfold append_stdout. simpl. rewrite app_assoc. reflexivity. Qed.

(** [C2] If the resolved severity identifier has no descriptor in
    [Severity.levels], [show_message] prints exactly two lines, the warning
    [⚠️ Undeclared severity level: <id>] and then the message unstyled,
    returns [False], and does nothing else; this holds for every style. *)
Theorem show_message_undeclared (w : world) (message : string)
    (severity_level : option string) (style : option Styles.style) :
  level_declared (levels w) (resolve_severity (msg_defaults w) severity_level) = false ->
  show_message message severity_level style w =
    (Ok false,
     append_stdout
       [ "⚠️ Undeclared severity level: " +:+
           match resolve_severity (msg_defaults w) severity_level with
           | Some s => s
           | None => "None"
           end;
         message ] w).
Proof.
  intros Hnot. unfold show_message. run_m.
  destruct (resolve_severity (msg_defaults w) severity_level) as [s|] eqn:Hs;
    simpl in Hnot.
  - destruct (levels w !! s) eqn:Hl.
    + exfalso. revert Hnot. rewrite bool_decide_eq_false. intros []. eauto.
    + rewrite append_stdout_app. reflexivity.
  - rewrite append_stdout_app. reflexivity.
Qed.

Lemma show_message_undeclared_witness :
  level_declared (levels initial_world)
    (resolve_severity (msg_defaults initial_world) (Some "UNKNOWN")) = false /\
  show_message "Hello" (Some "UNKNOWN") (Some Styles.ICONS) initial_world =
    (Ok false,
     append_stdout ["⚠️ Undeclared severity level: " +:+ "UNKNOWN"; "Hello"]
       initial_world).
Proof.
  split; [vm_compute; reflexivity|].
  apply (show_message_undeclared initial_world "Hello" (Some "UNKNOWN")).
  vm_compute. reflexivity.
Defined.

(** A declared level renders with [PLAIN] as the bare message and with
    [ICONS] as icon, space, message; one [print] call, result [True]. *)
Lemma show_message_plain_icons (w : world) (message s : string) (d : descriptor) :
  levels w !! s = Some d ->
  show_message message (Some s) (Some Styles.PLAIN) w =
    (Ok true, append_stdout [message] w) /\
  show_message message (Some s) (Some Styles.ICONS) w =
    (Ok true, append_stdout [icon d +:+ " " +:+ message] w).
Proof.
  intros Hd. unfold show_message, print_message, levels_getitem.
  run_m. rewrite Hd. run_m. rewrite Hd. run_m.
  split; [reflexivity|].
  unfold append_stdout. simpl. rewrite <- string_app_assoc. reflexivity.
Qed.

(** With [COLORS], a declared level whose color name is missing from
    [Colors.COLORS] makes [print_message] evaluate [None + message]: the
    call raises [TypeError] before anything is printed. *)
Lemma show_message_colors_unknown (w : world) (message s : string) (d : descriptor) :
  levels w !! s = Some d ->
  Colors.COLORS !! color d = None ->
  show_message message (Some s) (Some Styles.COLORS) w = (Raise TypeError, w).
Proof.
  intros Hd Hc. unfold show_message, print_message, levels_getitem.
  run_m. rewrite Hd. run_m. rewrite Hd. run_m.
  unfold getCode. rewrite Hc, COLORS_RESET. reflexivity.
Qed.

(** With [COLORS], a declared level whose color name is in
    [Colors.COLORS] prints [start + message + RESET]. *)
Lemma show_message_colors_known (w : world) (message s : string)
    (d : descriptor) (code : string) :
  levels w !! s = Some d ->
  Colors.COLORS !! color d = Some code ->
  show_message message (Some s) (Some Styles.COLORS) w =
    (Ok true, append_stdout [code +:+ message +:+ Colors.sgr "0"] w).
Proof.
  intros Hd Hc. unfold show_message, print_message, levels_getitem.
  run_m. rewrite Hd. run_m. rewrite Hd. run_m.
  unfold getCode. rewrite Hc, COLORS_RESET. run_m.
  unfold append_stdout. run_m. rewrite <- string_app_assoc. reflexivity.
Qed.

(** The registry after [add_level("DEBUG", "🐛", "[DEBUG] ", "PURPLE")]:
    a custom level whose color is not a name of the Color Table. *)
Definition debug_world : world :=
  snd (add_level "DEBUG" "🐛" "[DEBUG] " "PURPLE" initial_world).

Lemma debug_world_DEBUG :
  levels debug_world !! "DEBUG" = Some (mk_descriptor "🐛" "[DEBUG] " "PURPLE").
Proof. vm_compute. reflexivity. Qed.

Lemma COLORS_PURPLE : Colors.COLORS !! "PURPLE" = None.
Proof. vm_compute. reflexivity. Qed.

Lemma COLORS_YELLOW : Colors.COLORS !! "YELLOW" = Some (Colors.sgr "33").
Proof. vm_compute. reflexivity. Qed.

(** [C1] Failing input for the unknown-color case: after
    [add_level("DEBUG", "🐛", "[DEBUG] ", "PURPLE")], whose color is not in
    the Color Table, [show_message("Hello", "DEBUG", Styles.COLORS)] does
    not print [Hello\033[0m]: [getCode("PURPLE")] is [None], the expression
    [None + "Hello"] raises [TypeError], and nothing is printed. *)
Theorem show_message_unknown_color_raises :
  show_message "Hello" (Some "DEBUG") (Some Styles.COLORS) debug_world =
    (Raise TypeError, debug_world).
Proof.
  apply (show_message_colors_unknown _ _ _ _ debug_world_DEBUG).
  exact COLORS_PURPLE.
Qed.

(** [C3] Failing input for "every registered level and every style
    returns [True] with one line": for the registered level ["DEBUG"]
    (color ["PURPLE"], not in the Color Table) [PLAIN] and [ICONS] print
    one line and return [True], but [COLORS] raises [TypeError]. *)
Theorem show_message_registered_colors_raises :
  is_Some (levels debug_world !! "DEBUG") /\
  show_message "trace" (Some "DEBUG") (Some Styles.PLAIN) debug_world =
    (Ok true, append_stdout ["trace"] debug_world) /\
  show_message "trace" (Some "DEBUG") (Some Styles.ICONS) debug_world =
    (Ok true, append_stdout ["🐛 trace"] debug_world) /\
  show_message "trace" (Some "DEBUG") (Some Styles.COLORS) debug_world =
    (Raise TypeError, debug_world).
Proof.
  destruct (show_message_plain_icons debug_world "trace" _ _ debug_world_DEBUG)
    as [Hp Hi].
  split; [rewrite debug_world_DEBUG; eexists; reflexivity|].
  split; [exact Hp|]. split; [exact Hi|].
  apply (show_message_colors_unknown _ _ _ _ debug_world_DEBUG).
  exact COLORS_PURPLE.
Qed.

(** [C4] (amended) Rendering ["Hello"] at a severity [WARN] whose
    descriptor color is [YELLOW] with [COLORS] prints the single line
    [\033[33mHello\033[0m] (YELLOW is code 33) and returns [True]. *)
Theorem show_message_warn_colors (w : world) (d : descriptor) :
  levels w !! "WARN" = Some d ->
  color d = "YELLOW" ->
  show_message "Hello" (Some "WARN") (Some Styles.COLORS) w =
    (Ok true, append_stdout [Colors.ESC +:+ "[33mHello" +:+ Colors.ESC +:+ "[0m"] w).
Proof.
  intros Hd Hc.
  rewrite (show_message_colors_known w "Hello" "WARN" d (Colors.sgr "33") Hd).
  - reflexivity.
  - rewrite Hc. exact COLORS_YELLOW.
Qed.

Lemma show_message_warn_colors_witness :
  levels initial_world !! "WARN" = Some (mk_descriptor "⚠️" "[WARNING] " "YELLOW") /\
  show_message "Hello" (Some "WARN") (Some Styles.COLORS) initial_world =
    (Ok true, append_stdout [Colors.ESC +:+ "[33mHello" +:+ Colors.ESC +:+ "[0m"]
                initial_world).
Proof.
  split; [vm_compute; reflexivity|].
  apply (show_message_warn_colors initial_world
           (mk_descriptor "⚠️" "[WARNING] " "YELLOW")).
  - vm_compute. reflexivity.
  - reflexivity.
Defined.

(** Counterexample to [C4] as stated: with the built-in registry the
    line printed for WARN with [COLORS] is not [\033[93mHello\033[0m]. *)
Lemma show_message_warn_colors_not_93 :
  show_message "Hello" (Some "WARN") (Some Styles.COLORS) initial_world <>
    (Ok true, append_stdout [Colors.ESC +:+ "[93mHello" +:+ Colors.ESC +:+ "[0m"]
                initial_world).
Proof.
  intros H. apply (f_equal (fun p => stdout (snd p))) in H.
  vm_compute in H. discriminate H.
Qed.

(** ** The registry operations *)

(** [C5] [set_default_level(id)] for an [id] that is not a registered
    level raises the unknown-level exception ["Severity level does not
    exist: <id>"] and changes nothing (the default severity included);
    [set_default_level(None)] sets the default severity to [None] and keeps
    the default style. *)
Theorem set_default_level_unknown_or_clear (w : world) (id : string) :
  (levels w !! id = None ->
   set_default_level (Some id) w =
     (Raise (Exception ("Severity level does not exist: " +:+ id)), w)) /\
  set_default_level None w =
    (Ok tt, set_msg_defaults (mk_defaults None (dflt_style (msg_defaults w))) w).
Proof.
  split.
  - intros Hnone. unfold set_default_level. run_m. rewrite Hnone. reflexivity.
  - reflexivity.
Qed.

Lemma set_default_level_unknown_or_clear_witness :
  levels initial_world !! "DEBUG" = None /\
  set_default_level (Some "DEBUG") initial_world =
    (Raise (Exception ("Severity level does not exist: " +:+ "DEBUG")), initial_world).
Proof.
  split; [vm_compute; reflexivity|].
  apply (proj1 (set_default_level_unknown_or_clear initial_world "DEBUG")).
  vm_compute. reflexivity.
Defined.

(** [C6] Once [set_default_level("WARN")] has succeeded, [show_message(x)]
    without a severity gives the same result, output and final state as
    [show_message(x, "WARN")], for every message and style argument. *)
Theorem show_message_default_warn (w w' : world) (message : string)
    (style : option Styles.style) :
  set_default_level (Some "WARN") w = (Ok tt, w') ->
  show_message message None style w' = show_message message (Some "WARN") style w'.
Proof.
  intros Hset.
  unfold set_default_level, mbind, M_bind, gets, modify, raise in Hset.
  simpl in Hset.
  destruct (levels w !! "WARN") eqn:Hwarn; inversion Hset; subst.
  reflexivity.
Qed.

Lemma show_message_default_warn_witness :
  set_default_level (Some "WARN") initial_world =
    (Ok tt, set_msg_defaults (mk_defaults (Some "WARN") Styles.ICONS) initial_world) /\
  show_message "x" None None
    (set_msg_defaults (mk_defaults (Some "WARN") Styles.ICONS) initial_world) =
  show_message "x" (Some "WARN") None
    (set_msg_defaults (mk_defaults (Some "WARN") Styles.ICONS) initial_world).
Proof.
  split; [vm_compute; reflexivity|].
  apply (show_message_default_warn initial_world).
  vm_compute. reflexivity.
Defined.

(** [C8] [Colors.getCode(name)] never raises: it returns the escape
    sequence of a known name and [None] for an unknown one, leaves the
    state as it is, and two successive calls with the same name return the
    same value. *)
Theorem getCode_total_pure (name : string) (w : world) :
  getCode name w =
    (Ok (match Colors.COLORS !! name with
         | Some c => PyStr c
         | None => PyNone
         end), w) /\
  (a ← getCode name; b ← getCode name; mret (a, b)) w =
    (Ok (let r := match Colors.COLORS !! name with
                  | Some c => PyStr c
                  | None => PyNone
                  end in (r, r)), w).
Proof.
  unfold getCode. destruct (Colors.COLORS !! name); split; reflexivity.
Qed.

(** [C9] [remove_level(id)] deletes the descriptor of a registered [id]
    and touches nothing else; for an [id] that is not registered,
    [del self.levels[id]] raises [KeyError] and the state is unchanged. *)
Theorem remove_level_deletes_or_raises (w : world) (id : string) :
  (is_Some (levels w !! id) ->
   remove_level id w = (Ok tt, set_levels (delete id (levels w)) w)) /\
  (levels w !! id = None ->
   remove_level id w = (Raise (KeyError id), w)).
Proof.
  unfold remove_level. run_m. split.
  - intros [d Hd]. rewrite Hd. reflexivity.
  - intros Hn. rewrite Hn. reflexivity.
Qed.

Lemma remove_level_deletes_or_raises_witness :
  (is_Some (levels initial_world !! "WARN") /\
   remove_level "WARN" initial_world =
     (Ok tt, set_levels (delete "WARN" (levels initial_world)) initial_world)) /\
  (levels initial_world !! "DEBUG" = None /\
   remove_level "DEBUG" initial_world = (Raise (KeyError "DEBUG"), initial_world)).
Proof.
  split; split.
  - vm_compute. eexists. reflexivity.
  - apply (proj1 (remove_level_deletes_or_raises initial_world "WARN")).
    vm_compute. eexists. reflexivity.
  - vm_compute. reflexivity.
  - apply (proj2 (remove_level_deletes_or_raises initial_world "DEBUG")).
    vm_compute. reflexivity.
Defined.

(** ** Singleton construction *)

(** One guarded construction attempt: it never escapes the [try], it never
    clears the [Severity] flag, and it returns an instance only for
    [Severity()] with the flag still clear, which it then sets. *)
Lemma try_construct_step (c : pyclass) (n : nat) (w : world) :
  exists (b : bool) (w' : world),
    try_construct c n w = (Ok b, w') /\
    (severity_instance_created w = true -> severity_instance_created w' = true) /\
    (b = true ->
     c = SeverityCls /\ severity_instance_created w = false /\
     severity_instance_created w' = true).
Proof.
  unfold try_construct, construct, singleton_new, singleton_init.
  destruct c, n as [|n]; run_m.
  - destruct (severity_instance_created w) eqn:Hf; simpl.
    + eexists _, _. split; [reflexivity|]. split; [auto | discriminate].
    + eexists _, _. split; [reflexivity|]. simpl. split; [auto | auto].
  - eexists _, _. split; [reflexivity|]. split; [auto | discriminate].
  - destruct (messages_instance_created w) eqn:Hf; simpl.
    + eexists _, _. split; [reflexivity|]. split; [auto | discriminate].
    + eexists _, _. split; [reflexivity|]. split; [auto | discriminate].
  - eexists _, _. split; [reflexivity|]. split; [auto | discriminate].
Qed.

(** Invariant of a sequence of attempts: it runs to the end, at most one
    [Severity] attempt succeeds and none if the flag was already set, and
    no [Messages] attempt succeeds. *)
Lemma run_attempts_bound (attempts : list (pyclass * nat)) (w : world) :
  exists outs w',
    run_attempts attempts w = (Ok outs, w') /\
    successes SeverityCls outs <= (if severity_instance_created w then 0 else 1) /\
    successes MessagesCls outs = 0.
Proof.
  revert w. induction attempts as [|[c n] rest IH]; intros w.
  - exists [], w. split; [reflexivity|]. unfold successes. simpl.
    split; [destruct (severity_instance_created w); lia | reflexivity].
  - destruct (try_construct_step c n w) as (b & w1 & Hrun & Hmono & Hok).
    destruct (IH w1) as (outs & w2 & Hrest & Hsev & Hmsg).
    exists ((c, b) :: outs), w2. split.
    { simpl. rewrite run_bind, Hrun, run_bind, Hrest. reflexivity. }
    unfold successes in *.
    destruct b.
    + destruct (Hok eq_refl) as (-> & Hw & Hw1).
      rewrite Hw1 in Hsev. rewrite Hw. simpl. lia.
    + assert (Hb : (if severity_instance_created w1 then 0 else 1) <=
                   (if severity_instance_created w then 0 else 1)).
      { destruct (severity_instance_created w) eqn:E.
        - rewrite (Hmono eq_refl). lia.
        - destruct (severity_instance_created w1); lia. }
      set (k1 := if severity_instance_created w1 then 0 else 1) in *.
      set (k := if severity_instance_created w then 0 else 1) in *.
      destruct c; simpl; split; lia.
Qed.

(** Every call [Messages(...)] raises: with an argument, [__new__] rejects
    it; without, [__init__] misses its [severity] argument (after
    [__new__] has set the flag, or [__new__] raises the singleton error). *)
Lemma construct_messages_raises (n : nat) (w : world) :
  exists e, fst (construct MessagesCls n w) = Raise e.
Proof.
  unfold construct, singleton_new, singleton_init. destruct n; run_m.
  - destruct (messages_instance_created w); simpl; eexists; reflexivity.
  - eexists; reflexivity.
Qed.

(** [C10] Constructing [Severity] again once its flag is set raises, and so
    does every construction of [Messages]; whatever the order and the
    arguments of a sequence of attempts (each one guarded by a [try]), at
    most one of them returns a [Severity] instance and at most one (in
    fact none) returns a [Messages] instance. *)
Theorem singleton_at_most_one_instance :
  (forall (n : nat) (w : world), severity_instance_created w = true ->
     exists e, fst (construct SeverityCls n w) = Raise e) /\
  (forall (n : nat) (w : world), exists e, fst (construct MessagesCls n w) = Raise e) /\
  (forall (attempts : list (pyclass * nat)) (w : world),
     exists outs w',
       run_attempts attempts w = (Ok outs, w') /\
       successes SeverityCls outs <= 1 /\
       successes MessagesCls outs <= 1).
Proof.
  split; [|split].
  - intros n w Hf. unfold construct, singleton_new.
    destruct n; run_m; [rewrite Hf|]; eexists; reflexivity.
  - exact construct_messages_raises.
  - intros attempts w.
    destruct (run_attempts_bound attempts w) as (outs & w' & Hr & Hs & Hm).
    exists outs, w'. split; [exact Hr|].
    destruct (severity_instance_created w); lia.
Qed.

Lemma singleton_at_most_one_instance_witness :
  severity_instance_created (snd (construct SeverityCls 0 initial_world)) = true /\
  exists e, fst (construct SeverityCls 0 (snd (construct SeverityCls 0 initial_world))) =
              Raise e.
Proof.
  split; [reflexivity|].
  apply (proj1 singleton_at_most_one_instance 0).
  reflexivity.
Defined.

(* ================================================================== *)
(** * Further properties of the module *)

(** ** Adding and removing levels *)

(** [add_level] inserts or overwrites the descriptor of [id]: afterwards
    [id] maps to the new descriptor, every other id keeps its descriptor,
    and the defaults and the output are unchanged. *)
Theorem add_level_lookup (w : world) (id icon label color : string) :
  let w' := snd (add_level id icon label color w) in
  fst (add_level id icon label color w) = Ok tt /\
  levels w' !! id = Some (mk_descriptor icon label color) /\
  (forall j, j <> id -> levels w' !! j = levels w !! j) /\
  msg_defaults w' = msg_defaults w /\
  stdout w' = stdout w.
Proof.
  simpl. split; [reflexivity|]. split; [apply lookup_insert_eq|].
  split; [intros j Hj; apply lookup_insert_ne; congruence|].
  split; reflexivity.
Qed.

(** Adding the same id twice keeps only the second descriptor. *)
Theorem add_level_twice (w : world) (id i1 l1 c1 i2 l2 c2 : string) :
  (add_level id i1 l1 c1;; add_level id i2 l2 c2) w = add_level id i2 l2 c2 w.
Proof.
  unfold add_level. run_m. unfold set_levels. simpl.
  rewrite insert_insert_eq. reflexivity.
Qed.

(** Adding a fresh id and removing it again gives back the state as it
    was. *)
Theorem add_then_remove_level (w : world) (id icon label color : string) :
  levels w !! id = None ->
  (add_level id icon label color;; remove_level id) w = (Ok tt, w).
Proof.
  intros Hfresh. unfold add_level, remove_level. run_m.
  rewrite lookup_insert_eq. run_m. unfold set_levels. simpl.
  rewrite delete_insert_id by exact Hfresh. destruct w; reflexivity.
Qed.

Lemma add_then_remove_level_witness :
  levels initial_world !! "DEBUG" = None /\
  (add_level "DEBUG" "🐛" "[DEBUG] " "CYAN";; remove_level "DEBUG") initial_world =
    (Ok tt, initial_world).
Proof.
  split; [vm_compute; reflexivity|].
  apply add_then_remove_level. vm_compute. reflexivity.
Defined.

(** Removing the same id twice always raises [KeyError id]: either the id
    was absent, or the first call deleted it. *)
Theorem remove_level_twice_raises (w : world) (id : string) :
  fst ((remove_level id;; remove_level id) w) = Raise (KeyError id).
Proof.
  unfold remove_level. run_m.
  destruct (levels w !! id) eqn:Hid; run_m.
  - rewrite lookup_delete_eq. reflexivity.
  - reflexivity.
Qed.

(** A level added with [add_level] is rendered by [show_message] with
    [ICONS] as its icon, a space and the message (one line, result
    [True]), whatever its color. *)
Theorem add_level_then_show_icons (w : world) (message id icon label color : string) :
  (add_level id icon label color;;
   show_message message (Some id) (Some Styles.ICONS)) w =
  (Ok true,
   append_stdout [icon +:+ " " +:+ message]
     (snd (add_level id icon label color w))).
Proof.
  rewrite run_bind. simpl.
  apply (show_message_plain_icons _ _ _ (mk_descriptor icon label color)).
  apply lookup_insert_eq.
Qed.

(** ** Defaults *)

(** The undeclared branch of [show_message], as a reusable step. *)
Lemma show_message_undeclared_run (w : world) (message : string)
    (severity_level : option string) (style : option Styles.style) :
  level_declared (levels w) (resolve_severity (msg_defaults w) severity_level) = false ->
  show_message message severity_level style w =
    (Ok false,
     append_stdout
       [ "⚠️ Undeclared severity level: " +:+
           match resolve_severity (msg_defaults w) severity_level with
           | Some s => s
           | None => "None"
           end;
         message ] w).
Proof.
  intros Hnot. unfold show_message. run_m.
  destruct (resolve_severity (msg_defaults w) severity_level) as [s|];
    simpl in Hnot.
  - destruct (levels w !! s) eqn:Hl.
    + exfalso. revert Hnot. rewrite bool_decide_eq_false. intros []. eauto.
    + rewrite append_stdout_app. reflexivity.
  - rewrite append_stdout_app. reflexivity.
Qed.

(** Setting a registered level as default and reading it back gives that
    level; only the default severity changes. *)
Theorem set_then_get_default_level (w : world) (id : string) :
  is_Some (levels w !! id) ->
  (set_default_level (Some id);; get_default_level) w =
    (Ok (Some id),
     set_msg_defaults (mk_defaults (Some id) (dflt_style (msg_defaults w))) w).
Proof.
  intros [d Hd]. unfold set_default_level, get_default_level. run_m.
  rewrite Hd. reflexivity.
Qed.

Lemma set_then_get_default_level_witness :
  is_Some (levels initial_world !! "FATAL") /\
  (set_default_level (Some "FATAL");; get_default_level) initial_world =
    (Ok (Some "FATAL"),
     set_msg_defaults (mk_defaults (Some "FATAL") Styles.ICONS) initial_world).
Proof.
  split; [vm_compute; eexists; reflexivity|].
  apply (set_then_get_default_level initial_world "FATAL").
  vm_compute. eexists. reflexivity.
Defined.

(** After [set_default_level(None)], a call of [show_message] without a
    severity takes the undeclared path: it prints the warning with the
    id [None], then the message, and returns [False]. *)
Theorem clear_default_then_show (w : world) (message : string)
    (style : option Styles.style) :
  (set_default_level None;; show_message message None style) w =
    (Ok false,
     append_stdout ["⚠️ Undeclared severity level: None"; message]
       (set_msg_defaults (mk_defaults None (dflt_style (msg_defaults w))) w)).
Proof.
  rewrite run_bind. simpl.
  apply show_message_undeclared_run. reflexivity.
Qed.

(** [remove_level] does not look at the defaults: removing the level that
    is the default severity leaves the default pointing at it, and a later
    [show_message] without a severity takes the undeclared path. *)
Theorem remove_default_level_then_show (w : world) (id message : string)
    (style : option Styles.style) :
  dflt_severity_level (msg_defaults w) = Some id ->
  is_Some (levels w !! id) ->
  (remove_level id;; show_message message None style) w =
    (Ok false,
     append_stdout ["⚠️ Undeclared severity level: " +:+ id; message]
       (set_levels (delete id (levels w)) w)).
Proof.
  intros Hdef [d Hd]. unfold remove_level at 1. run_m. rewrite Hd. run_m.
  rewrite (show_message_undeclared_run (set_levels (delete id (levels w)) w)).
  - simpl. rewrite Hdef. reflexivity.
  - simpl. rewrite Hdef. simpl. rewrite lookup_delete_eq. reflexivity.
Qed.

Lemma remove_default_level_then_show_witness :
  dflt_severity_level (msg_defaults initial_world) = Some "INFO" /\
  is_Some (levels initial_world !! "INFO") /\
  (remove_level "INFO";; show_message "x" None None) initial_world =
    (Ok false,
     append_stdout ["⚠️ Undeclared severity level: " +:+ "INFO"; "x"]
       (set_levels (delete "INFO" (levels initial_world)) initial_world)).
Proof.
  split; [reflexivity|]. split; [vm_compute; eexists; reflexivity|].
  apply remove_default_level_then_show.
  - reflexivity.
  - vm_compute. eexists. reflexivity.
Defined.

(** ** Rendering without the membership test *)

(** [print_message] itself does not check that the level exists: with
    [PLAIN] it prints the message for any level, while [ICONS] and
    [COLORS] index [self.severity.levels] and raise [KeyError] for an
    undeclared level, printing nothing. *)
Theorem print_message_undeclared (w : world) (message s : string) :
  levels w !! s = None ->
  print_message message s Styles.PLAIN w = (Ok tt, append_stdout [message] w) /\
  print_message message s Styles.ICONS w = (Raise (KeyError s), w) /\
  print_message message s Styles.COLORS w = (Raise (KeyError s), w).
Proof.
  intros Hs. unfold print_message, levels_getitem. run_m. rewrite Hs.
  split; [reflexivity|]. split; reflexivity.
Qed.

Lemma print_message_undeclared_witness :
  levels initial_world !! "DEBUG" = None /\
  print_message "trace" "DEBUG" Styles.ICONS initial_world =
    (Raise (KeyError "DEBUG"), initial_world).
Proof.
  split; [vm_compute; reflexivity|].
  apply (print_message_undeclared initial_world "trace" "DEBUG").
  vm_compute. reflexivity.
Defined.

(** Omitted arguments are replaced by the defaults before anything else. *)
Lemma show_message_resolve (w : world) (message s : string)
    (severity_level : option string) (style : option Styles.style) :
  resolve_severity (msg_defaults w) severity_level = Some s ->
  show_message message severity_level style w =
  show_message message (Some s) (Some (resolve_style (msg_defaults w) style)) w.
Proof.
  intros Hs. unfold show_message. run_m. rewrite Hs. reflexivity.
Qed.

(** [show_message] only appends to the output: one line when it returns
    [True], two lines when it returns [False], and none when it raises. *)
Theorem show_message_output_lines (w : world) (message : string)
    (severity_level : option string) (style : option Styles.style) :
  exists lines,
    stdout (snd (show_message message severity_level style w)) = (stdout w ++ lines)%list /\
    match fst (show_message message severity_level style w) with
    | Ok true => length lines = 1
    | Ok false => length lines = 2
    | Raise _ => lines = []
    end.
Proof.
  destruct (level_declared (levels w)
              (resolve_severity (msg_defaults w) severity_level)) eqn:Hdecl.
  - destruct (resolve_severity (msg_defaults w) severity_level) as [s|] eqn:Hs;
      simpl in Hdecl; [|discriminate].
    apply bool_decide_eq_true in Hdecl. destruct Hdecl as [d Hd].
    rewrite (show_message_resolve w message s severity_level style Hs).
    destruct (resolve_style (msg_defaults w) style).
    + rewrite (proj1 (show_message_plain_icons w message s d Hd)).
      eexists. split; reflexivity.
    + destruct (Colors.COLORS !! color d) as [code|] eqn:Hc.
      * rewrite (show_message_colors_known w message s d code Hd Hc).
        eexists. split; reflexivity.
      * rewrite (show_message_colors_unknown w message s d Hd Hc).
        exists []. simpl. rewrite app_nil_r. split; reflexivity.
    + rewrite (proj2 (show_message_plain_icons w message s d Hd)).
      eexists. split; reflexivity.
  - rewrite (show_message_undeclared_run w message severity_level style Hdecl).
    eexists. split; reflexivity.
Qed.

(** ** The setup script *)

(** Importing [setup.py] always fails at its module level: on a fresh
    interpreter [Severity()] succeeds and [Messages(severity)] raises
    [TypeError] ([Messages.__new__] takes no argument), and if a
    [Severity] instance already exists [Severity()] raises the singleton
    error. [main] is therefore never reached. *)
Theorem setup_module_init_raises (w : world) :
  fst (setup_module_init w) =
    Raise (if severity_instance_created w
           then Exception "Severity is a singleton"
           else TypeError).
Proof.
  unfold setup_module_init, construct, singleton_new, singleton_init.
  run_m. destruct (severity_instance_created w); reflexivity.
Qed.
